(** * sentryhttp: panic-reporting middleware for net/http

    A shallow embedding of [http/sentryhttp.go].  The middleware is a
    handful of sequential steps around one [defer]/[recover] pair, so the
    embedding is a state-and-panic monad over an explicit world (the
    heaps of [*Handler] and [*Hub] objects and the trace of calls made
    to the reporting client), a small model of Go's [defer] and
    [recover], and the three functions of the package written in that
    monad line by line. *)

From stdpp Require Import gmap strings list.
From Stdlib Require Import ZArith.

Local Open Scope Z_scope.

(** ** Go values *)

(** Heap addresses: the identity of a [*Hub] or of a [*Handler]. *)
Definition addr := nat.

(** A value of type [interface{}], as far as a panic value needs one. *)
Inductive any :=
| Nil
| AString (s : string)
| AInt (n : Z)
| AError (msg : string)
| APanicNilError.

#[global] Instance any_eq_dec : EqDecision any.
Proof. solve_decision. Defined.

Definition is_nil (v : any) : bool :=
  match v with Nil => true | _ => false end.

(** ** Package time *)

Module time.
(** [time.Duration] is an [int64] count of nanoseconds. *)
Definition Duration := Z.
Definition Millisecond : Duration := 1000000.
Definition Second : Duration := 1000000000.
End time.

(** ** Contexts and requests

    A [context.Context] is the chain built by [context.WithValue]; a
    request carries one, and the recovery step stores a request in one,
    hence the mutual definition. *)

Inductive ctx_key :=
| HubContextKey
| RequestContextKey
| OtherKey (name : string).

Inductive context :=
| Background
| WithValue (parent : context) (key : ctx_key) (val : ctx_val)
with ctx_val :=
| VHub (hub : addr)
| VRequest (r : Request)
| VAny (a : any)
with Request :=
| mkRequest (Method URL RemoteAddr : string)
            (Header : list (string * string)) (ctx : context).

Definition ctx_key_eqb (a b : ctx_key) : bool :=
  match a, b with
  | HubContextKey, HubContextKey => true
  | RequestContextKey, RequestContextKey => true
  | OtherKey x, OtherKey y => bool_decide (x = y)
  | _, _ => false
  end.

(** [ctx.Value(key)]: the innermost binding of [key]. *)
Fixpoint Value (c : context) (key : ctx_key) : option ctx_val :=
  match c with
  | Background => None
  | WithValue parent k v =>
      if ctx_key_eqb key k then Some v else Value parent key
  end.

(** [r.Context()] *)
Definition Context (r : Request) : context :=
  match r with mkRequest _ _ _ _ c => c end.

(** [r.WithContext(ctx)]: a shallow copy of [r] with its context changed. *)
Definition WithContext (r : Request) (c : context) : Request :=
  match r with mkRequest m u a hd _ => mkRequest m u a hd c end.

(** ** The world *)

(** What a hub's scope holds. *)
Record Hub := mkHub {
  scope_request : option Request;
  scope_tags : list (string * string)
}.

(** The zero hub: what an address holds that nothing was stored at. *)
Definition empty_Hub : Hub :=
  {| scope_request := None; scope_tags := [] |}.

(** [type Handler struct] *)
Record Handler := mkHandler {
  repanic : bool;
  waitForDelivery : bool;
  timeout : time.Duration
}.

(** [Handler{}], the zero value. *)
Definition zero_Handler : Handler :=
  {| repanic := false; waitForDelivery := false; timeout := 0 |}.

Definition EventID := string.

(** The calls made to the collaborators, in order. *)
Inductive event :=
| EvClone (src clone : addr)
| EvSetRequest (hub : addr) (r : Request)
| EvRecoverWithContext (hub : addr) (c : context) (err : any)
| EvFlush (hub : addr) (d : time.Duration)
| EvWriteHeader (w : addr) (status : Z)
| EvWrite (w : addr) (body : string).

Record world := mkWorld {
  handlers : gmap addr Handler;
  hubs : gmap addr Hub;
  current_hub : addr;
  log : list event
}.

(** Go pointers never dangle: reading an address nothing was stored at
    gives the zero value of the type. *)
Definition hub_at (s : world) (p : addr) : Hub :=
  default empty_Hub (hubs s !! p).

Definition handler_at (s : world) (p : addr) : Handler :=
  default zero_Handler (handlers s !! p).

Definition set_hubs (m : gmap addr Hub) (s : world) : world :=
  {| handlers := handlers s; hubs := m;
     current_hub := current_hub s; log := log s |}.

Definition set_handlers (m : gmap addr Handler) (s : world) : world :=
  {| handlers := m; hubs := hubs s;
     current_hub := current_hub s; log := log s |}.

Definition log_event (e : event) (s : world) : world :=
  {| handlers := handlers s; hubs := hubs s;
     current_hub := current_hub s; log := log s ++ [e] |}.

(** ** The monad: state and panics *)

Inductive outcome (A : Type) :=
| Return (a : A)
| Panicking (v : any).
Arguments Return {A} a.
Arguments Panicking {A} v.

Definition M (S A : Type) : Type := S -> outcome A * S.

Definition ret {S A} (a : A) : M S A := fun s => (Return a, s).

Definition bind {S A B} (m : M S A) (k : A -> M S B) : M S B :=
  fun s =>
    match m s with
    | (Return a, s') => k a s'
    | (Panicking v, s') => (Panicking v, s')
    end.

Notation "x <- m ;; k" := (bind m (fun x => k))
  (at level 100, m at next level, right associativity).

(** Go 1.21 changed [panic(nil)]: before it, [recover()] returns [nil]
    for it; since, the runtime panics with a [*runtime.PanicNilError]
    instead.  Which one applies depends on the [go] line of the module
    and on [GODEBUG=panicnil], so it is a parameter. *)
Inductive nilpanic := LegacyNilPanic | PanicNilErrorSince121.

(** The value [recover()] yields for [panic(v)]. *)
Definition panic_value (mode : nilpanic) (v : any) : any :=
  match mode, v with
  | PanicNilErrorSince121, Nil => APanicNilError
  | _, _ => v
  end.

(** [panic(v)] *)
Definition gopanic {S A} (mode : nilpanic) (v : any) : M S A :=
  fun s => (Panicking (panic_value mode v), s).

(** The state a deferred call runs in: the world, and the panic the
    goroutine is unwinding with, if any. *)
Record frame := mkFrame {
  panicking : option any;
  heap : world
}.

(** [recover()], called by the deferred function itself: it stops the
    panic and returns its value, or returns [nil] when there is none. *)
Definition recover : M frame any :=
  fun f =>
    match panicking f with
    | Some v => (Return v, {| panicking := None; heap := heap f |})
    | None => (Return Nil, f)
    end.

(** Code that knows nothing of the panic, run inside a deferred call. *)
Definition lift {A} (m : M world A) : M frame A :=
  fun f =>
    let '(o, s) := m (heap f) in
    (o, {| panicking := panicking f; heap := s |}).

(** [defer d(); body]: [d] runs when [body] returns and when it panics.
    If [d] returns with the panic recovered the function returns; if it
    returns with the panic still there the unwinding goes on; a panic of
    [d] replaces the one it was called for. *)
Definition defer_ (d : M frame unit) (body : M world unit) : M world unit :=
  fun s =>
    let '(o, s1) := body s in
    let p := match o with Return _ => None | Panicking v => Some v end in
    match d {| panicking := p; heap := s1 |} with
    | (Return _, f) =>
        match panicking f with
        | None => (Return tt, heap f)
        | Some v => (Panicking v, heap f)
        end
    | (Panicking v, f) => (Panicking v, heap f)
    end.

(** ** Package net/http *)

Module http.
(** An [http.ResponseWriter] is known by its address; what is written
    to it goes to the trace. *)
Definition ResponseWriter := addr.

(** [type HandlerFunc func(ResponseWriter, *Request)] *)
Definition HandlerFunc := ResponseWriter -> Request -> M world unit.

(** [type Handler interface { ServeHTTP(ResponseWriter, *Request) }] *)
Record Handler := mkHandler {
  ServeHTTP : ResponseWriter -> Request -> M world unit
}.

(** [func (f HandlerFunc) ServeHTTP(w, r) { f(w, r) }]: how a
    [HandlerFunc] is a [Handler]. *)
Definition HandlerFunc_Handler (f : HandlerFunc) : Handler :=
  {| ServeHTTP := fun w r => f w r |}.

Definition WriteHeader (w : ResponseWriter) (status : Z) : M world unit :=
  fun s => (Return tt, log_event (EvWriteHeader w status) s).

Definition Write (w : ResponseWriter) (body : string) : M world unit :=
  fun s => (Return tt, log_event (EvWrite w body) s).
End http.

(** ** Package sentry: the reporting client

    The hub API the middleware calls.  Each call is recorded in the
    trace; what the client answers to a fault report is its own
    business and is a parameter throughout. *)

Module sentry.
(** The client's answer to a fault report: an event identifier, or
    none when it decides not to report. *)
Definition client := world -> addr -> context -> any -> option EventID.

(** Modelled from the spec: [GetHubFromContext], the hub bound in a
    context under the well-known key, absent when there is none. *)
Definition GetHubFromContext (c : context) : option addr :=
  match Value c HubContextKey with
  | Some (VHub hub) => Some hub
  | _ => None
  end.

(** Modelled from the spec: [SetHubOnContext], the context with the
    hub bound under the well-known key. *)
Definition SetHubOnContext (c : context) (hub : addr) : context :=
  WithValue c HubContextKey (VHub hub).

(** Modelled from the spec: [CurrentHub], the process-wide hub. *)
Definition CurrentHub : M world addr :=
  fun s => (Return (current_hub s), s).

(** Modelled from the spec: [hub.Clone], a new hub at a fresh address
    whose scope is a copy of the scope of [hub]; [hub] is not
    changed. *)
Definition Clone (hub : addr) : M world addr :=
  fun s =>
    let p := fresh (dom (hubs s)) in
    (Return p,
     log_event (EvClone hub p)
       (set_hubs (<[p := hub_at s hub]> (hubs s)) s)).

(** Modelled from the spec: [hub.Scope().SetRequest(r)], the scope
    mutation that records the request's metadata. *)
Definition SetRequest (hub : addr) (r : Request) : M world unit :=
  fun s =>
    let hb := {| scope_request := Some r;
                 scope_tags := scope_tags (hub_at s hub) |} in
    (Return tt,
     log_event (EvSetRequest hub r) (set_hubs (<[hub := hb]> (hubs s)) s)).

(** Modelled from the spec: [hub.RecoverWithContext(ctx, err)], the
    fault report: panic value and context in, optional event
    identifier out. *)
Definition RecoverWithContext (capture : client)
    (hub : addr) (c : context) (err : any) : M world (option EventID) :=
  fun s =>
    (Return (capture s hub c err),
     log_event (EvRecoverWithContext hub c err) s).

(** Modelled from the spec: [hub.Flush(timeout)], which blocks until
    delivery or until the timeout elapses. *)
Definition Flush (hub : addr) (d : time.Duration) : M world unit :=
  fun s => (Return tt, log_event (EvFlush hub d) s).
End sentry.

(** ** Package sentryhttp *)

(** [type Options struct] *)
Record Options := mkOptions {
  Repanic : bool;
  WaitForDelivery : bool;
  Timeout : time.Duration
}.

(** A composite literal [Options{...}] names some of the fields; a field
    it leaves out has the zero value of its type. *)
Record OptionsLit := mkOptionsLit {
  lit_Repanic : option bool;
  lit_WaitForDelivery : option bool;
  lit_Timeout : option time.Duration
}.

Definition literal (l : OptionsLit) : Options :=
  {| Repanic := default false (lit_Repanic l);
     WaitForDelivery := default false (lit_WaitForDelivery l);
     Timeout := default 0 (lit_Timeout l) |}.

(** [&handler]: the struct moves to the heap, at a fresh address. *)
Definition address_of (hv : Handler) : M world addr :=
  fun s =>
    let p := fresh (dom (handlers s)) in
    (Return p, set_handlers (<[p := hv]> (handlers s)) s).

(** [h.f], a field load through the pointer. *)
Definition load {A} (f : Handler -> A) (h : addr) : M world A :=
  fun s => (Return (f (handler_at s h)), s).

(** [func New(options Options) *Handler] *)
Definition New (options : Options) : M world addr :=
  let handler := {| repanic := false;
                    timeout := time.Second * 2;
                    waitForDelivery := false |} in
  let handler :=
    if Repanic options
    then {| repanic := true; waitForDelivery := waitForDelivery handler;
            timeout := timeout handler |}
    else handler in
  let handler :=
    if negb (Timeout options =? 0)
    then {| repanic := repanic handler;
            waitForDelivery := waitForDelivery handler;
            timeout := Timeout options |}
    else handler in
  let handler :=
    if WaitForDelivery options
    then {| repanic := repanic handler; waitForDelivery := true;
            timeout := timeout handler |}
    else handler in
  address_of handler.

Section Middleware.
Variable mode : nilpanic.
Variable capture : sentry.client.

(** [func (h *Handler) recoverWithSentry(hub *sentry.Hub, r *http.Request)],
    always run as a deferred call. *)
Definition recoverWithSentry (h : addr) (hub : addr) (r : Request)
  : M frame unit :=
  err <- recover ;;
  if negb (is_nil err) then
    eventID <- lift (sentry.RecoverWithContext capture hub
                       (WithValue (Context r) RequestContextKey (VRequest r))
                       err) ;;
    wait <- lift (load waitForDelivery h) ;;
    _ <- (if bool_decide (eventID <> None) && wait
          then d <- lift (load timeout h) ;; lift (sentry.Flush hub d)
          else ret tt) ;;
    again <- lift (load repanic h) ;;
    if again then gopanic mode err else ret tt
  else ret tt.

(** [func (h *Handler) handle(handler http.Handler) http.HandlerFunc] *)
Definition handle (h : addr) (handler : http.Handler) : http.HandlerFunc :=
  fun w r =>
    let ctx := Context r in
    hub <- (match sentry.GetHubFromContext ctx with
            | Some hub => ret hub
            | None => cur <- sentry.CurrentHub ;; sentry.Clone cur
            end) ;;
    _ <- sentry.SetRequest hub r ;;
    let ctx := sentry.SetHubOnContext ctx hub in
    defer_ (recoverWithSentry h hub r)
           (http.ServeHTTP handler w (WithContext r ctx)).

(** [func (h *Handler) Handle(handler http.Handler) http.Handler] *)
Definition Handle (h : addr) (handler : http.Handler) : http.Handler :=
  http.HandlerFunc_Handler (handle h handler).

(** [func (h *Handler) HandleFunc(handler http.HandlerFunc) http.HandlerFunc] *)
Definition HandleFunc (h : addr) (handler : http.HandlerFunc)
  : http.HandlerFunc :=
  handle h (http.HandlerFunc_Handler handler).
End Middleware.

(** ** Reading the trace *)

Definition reports (l : list event) : list (addr * context * any) :=
  omap (fun e => match e with
                 | EvRecoverWithContext hub c err => Some (hub, c, err)
                 | _ => None
                 end) l.

Definition flushes (l : list event) : list (addr * time.Duration) :=
  omap (fun e => match e with
                 | EvFlush hub d => Some (hub, d)
                 | _ => None
                 end) l.

Definition clones (l : list event) : list (addr * addr) :=
  omap (fun e => match e with
                 | EvClone src p => Some (src, p)
                 | _ => None
                 end) l.

(** ** Where the next handler starts

    The hub the wrapper settles on for a request, the world it has made
    by the time it calls the next handler, and the request it passes. *)

Definition with_request (r : Request) (hb : Hub) : Hub :=
  {| scope_request := Some r; scope_tags := scope_tags hb |}.

Definition entry_hub (r : Request) (s : world) : addr :=
  match sentry.GetHubFromContext (Context r) with
  | Some hub => hub
  | None => fresh (dom (hubs s))
  end.

Definition entry_world (r : Request) (s : world) : world :=
  match sentry.GetHubFromContext (Context r) with
  | Some hub =>
      {| handlers := handlers s;
         hubs := <[hub := with_request r (hub_at s hub)]> (hubs s);
         current_hub := current_hub s;
         log := log s ++ [EvSetRequest hub r] |}
  | None =>
      let p := fresh (dom (hubs s)) in
      {| handlers := handlers s;
         hubs := <[p := with_request r (hub_at s (current_hub s))]> (hubs s);
         current_hub := current_hub s;
         log := log s ++ [EvClone (current_hub s) p; EvSetRequest p r] |}
  end.

Definition entry_request (r : Request) (s : world) : Request :=
  WithContext r (sentry.SetHubOnContext (Context r) (entry_hub r s)).

(** The context the fault report is made with. *)
Definition report_context (r : Request) : context :=
  WithValue (Context r) RequestContextKey (VRequest r).

(** What the recovery step adds to the trace for a panic value [v] it
    recovers in world [s]. *)
Definition recovery_events (capture : sentry.client)
    (h hub : addr) (r : Request) (v : any) (s : world) : list event :=
  EvRecoverWithContext hub (report_context r) v ::
  (if bool_decide (capture s hub (report_context r) v <> None)
      && waitForDelivery (handler_at s h)
   then [EvFlush hub (timeout (handler_at s h))]
   else []).

Definition add_events (evs : list event) (s : world) : world :=
  {| handlers := handlers s; hubs := hubs s;
     current_hub := current_hub s; log := log s ++ evs |}.

(** The handler [New] makes of its options. *)
Definition configured (options : Options) : Handler :=
  {| repanic := Repanic options;
     waitForDelivery := WaitForDelivery options;
     timeout := if Timeout options =? 0 then time.Second * 2
                else Timeout options |}.

(** ** What the claims say *)

(** The next handler, run where the wrapper runs it. *)
Definition next_run (handler : http.Handler) (w : http.ResponseWriter)
    (r : Request) (s : world) : outcome unit * world :=
  http.ServeHTTP handler w (entry_request r s) (entry_world r s).

(** The next handler ends in [panic(V)]. *)
Definition panics_with (mode : nilpanic) (V : any)
    (handler : http.Handler) (w : http.ResponseWriter)
    (r : Request) (s : world) : Prop :=
  fst (next_run handler w r s) = Panicking (panic_value mode V).

(** After the next handler, the wrapper makes exactly one fault report,
    on the hub of the request, with the value [V] and a context that
    holds the inbound request under the request key. *)
Definition reported_once (mode : nilpanic) (capture : sentry.client)
    (h : addr) (handler : http.Handler) (w : http.ResponseWriter)
    (r : Request) (s : world) (V : any) : Prop :=
  exists evs c,
    log (snd (handle mode capture h handler w r s))
      = log (snd (next_run handler w r s)) ++ evs
    /\ reports evs = [(entry_hub r s, c, V)]
    /\ Value c RequestContextKey = Some (VRequest r).

(** ** Sample data *)

Module sample.
(** A process with one hub, the current one, and no handler yet. *)
Definition start : world :=
  {| handlers := ∅; hubs := {[ 0%nat := empty_Hub ]};
     current_hub := 0%nat; log := [] |}.

(** The world after [New(options)] in [start]; the handler is at
    address [0]. *)
Definition after_New (options : Options) : world :=
  snd (New options start).

Definition request : Request :=
  mkRequest "GET" "/boom" "192.0.2.7:4711" [("Accept", "*/*")] Background.

(** A request that a parent middleware bound hub [0] to. *)
Definition request_with_hub : Request :=
  mkRequest "GET" "/boom" "192.0.2.7:4711" [("Accept", "*/*")]
    (sentry.SetHubOnContext Background 0%nat).

(** A client that accepts what it is given. *)
Definition accepting : sentry.client := fun _ _ _ _ => Some "e1"%string.

(** [func(w, r) { w.WriteHeader(202); panic(v) }] *)
Definition panicker (mode : nilpanic) (v : any) : http.Handler :=
  {| http.ServeHTTP := fun w r =>
       _ <- http.WriteHeader w 202 ;; gopanic mode v |}.

(** [func(w, r) { w.WriteHeader(200); w.Write("ok") }] *)
Definition ok : http.HandlerFunc :=
  fun w r => _ <- http.WriteHeader w 200 ;; http.Write w "ok".

Definition w : http.ResponseWriter := 7%nat.
End sample.

(** ** Requests, writes and chains of middleware *)

(** [r.Method], [r.URL], [r.RemoteAddr], [r.Header] *)
Definition Method (r : Request) : string :=
  match r with mkRequest m _ _ _ _ => m end.

Definition URL (r : Request) : string :=
  match r with mkRequest _ u _ _ _ => u end.

Definition RemoteAddr (r : Request) : string :=
  match r with mkRequest _ _ a _ _ => a end.

Definition Header (r : Request) : list (string * string) :=
  match r with mkRequest _ _ _ hd _ => hd end.

(** The calls made on response writers. *)
Definition writes (l : list event) : list event :=
  omap (fun e => match e with
                 | EvWriteHeader _ _ | EvWrite _ _ => Some e
                 | _ => None
                 end) l.

(** The three shapes of what one recovery step can add to the trace:
    nothing, a report, a report followed by a flush on the same hub. *)
Inductive recovery_trace (hub : addr) : list event -> Prop :=
| rt_nothing : recovery_trace hub []
| rt_report c v : recovery_trace hub [EvRecoverWithContext hub c v]
| rt_report_flush c v d :
    recovery_trace hub [EvRecoverWithContext hub c v; EvFlush hub d].

(** [outer.Handle(inner.Handle(handler))]: one middleware around
    another, as two routers or a parent package may stack them. *)
Definition chained (mode : nilpanic) (capture : sentry.client)
    (outer inner : addr) (handler : http.Handler) : http.HandlerFunc :=
  handle mode capture outer (Handle mode capture inner handler).

(** The request and the world the innermost handler of a chain of two
    starts with. *)
Definition chained_request (r : Request) (s : world) : Request :=
  entry_request (entry_request r s) (entry_world r s).

Definition chained_world (r : Request) (s : world) : world :=
  entry_world (entry_request r s) (entry_world r s).

Module sample2.
(** A world with two handlers: [0] raises the panic again, [1] does
    not. *)
Definition two_handlers : world :=
  snd (New (mkOptions false false 0)
         (snd (New (mkOptions true false 0) sample.start))).

(** A request whose context holds a value of the application. *)
Definition request_with_user : Request :=
  mkRequest "POST" "/login" "192.0.2.9:80" [("Accept", "*/*")]
    (WithValue Background (OtherKey "user") (VAny (AString "ada"))).
End sample2.

(** ** The steps, one by one *)

Lemma is_nil_false v : v <> Nil -> is_nil v = false.
Proof. by destruct v. Qed.

Lemma world_eta s :
  {| handlers := handlers s; hubs := hubs s;
     current_hub := current_hub s; log := log s |} = s.
Proof. by destruct s. Qed.

Lemma panic_value_not_nil mode v : v <> Nil -> panic_value mode v = v.
Proof. by destruct mode, v. Qed.

Lemma reports_app l1 l2 : reports (l1 ++ l2) = reports l1 ++ reports l2.
Proof. apply omap_app. Qed.

Lemma flushes_app l1 l2 : flushes (l1 ++ l2) = flushes l1 ++ flushes l2.
Proof. apply omap_app. Qed.

Lemma clones_app l1 l2 : clones (l1 ++ l2) = clones l1 ++ clones l2.
Proof. apply omap_app. Qed.

Section Steps.
Variable mode : nilpanic.
Variable capture : sentry.client.

(** [handle] is the entry steps, then the next handler under the
    deferred recovery. *)
Lemma handle_entry h handler w r s :
  handle mode capture h handler w r s =
  defer_ (recoverWithSentry mode capture h (entry_hub r s) r)
         (http.ServeHTTP handler w (entry_request r s))
         (entry_world r s).
Proof.
  unfold handle, entry_request, entry_hub, entry_world, bind.
  destruct (sentry.GetHubFromContext (Context r)) as [hub|]; cbn.
  - reflexivity.
  - unfold hub_at at 1. cbn. rewrite lookup_insert_eq. cbn.
    rewrite insert_insert_eq. unfold log_event, set_hubs. cbn.
    rewrite <- app_assoc. reflexivity.
Qed.

(** The recovery step when nothing panicked. *)
Lemma recover_no_panic h hub r s :
  recoverWithSentry mode capture h hub r {| panicking := None; heap := s |}
  = (Return tt, {| panicking := None; heap := s |}).
Proof. reflexivity. Qed.

(** The recovery step when [recover()] yields [nil]. *)
Lemma recover_nil h hub r s :
  recoverWithSentry mode capture h hub r
    {| panicking := Some Nil; heap := s |}
  = (Return tt, {| panicking := None; heap := s |}).
Proof. reflexivity. Qed.

(** The recovery step for a panic value that is not [nil]. *)
Lemma recover_panic h hub r v s :
  v <> Nil ->
  recoverWithSentry mode capture h hub r
    {| panicking := Some v; heap := s |}
  = (if repanic (handler_at s h) then Panicking v else Return tt,
     {| panicking := None;
        heap := add_events (recovery_events capture h hub r v s) s |}).
Proof.
  intros Hv. destruct s as [hs hb cur l].
  unfold recoverWithSentry, recovery_events, add_events, report_context.
  unfold bind, recover, lift, load, sentry.RecoverWithContext,
    sentry.Flush, gopanic, ret, log_event, handler_at.
  cbn [panicking heap handlers hubs current_hub log].
  rewrite (is_nil_false v Hv), (panic_value_not_nil mode v Hv).
  cbn [negb].
  destruct (bool_decide (capture _ hub _ v <> None));
    destruct (hs !! h) as [[again wait d]|] eqn:E;
    cbn; try destruct wait; try destruct again;
    repeat (cbn; rewrite E); cbn; rewrite <- ?app_assoc; reflexivity.
Qed.

(** The wrapped handler, by what the next handler did. *)
Lemma handle_returns h handler w r s s3 :
  http.ServeHTTP handler w (entry_request r s) (entry_world r s)
    = (Return tt, s3) ->
  handle mode capture h handler w r s = (Return tt, s3).
Proof.
  intros H. rewrite handle_entry. unfold defer_. rewrite H.
  by rewrite recover_no_panic.
Qed.

Lemma handle_recovers_nil h handler w r s s3 :
  http.ServeHTTP handler w (entry_request r s) (entry_world r s)
    = (Panicking Nil, s3) ->
  handle mode capture h handler w r s = (Return tt, s3).
Proof.
  intros H. rewrite handle_entry. unfold defer_. rewrite H.
  by rewrite recover_nil.
Qed.

Lemma handle_recovers h handler w r s v s3 :
  v <> Nil ->
  http.ServeHTTP handler w (entry_request r s) (entry_world r s)
    = (Panicking v, s3) ->
  handle mode capture h handler w r s
  = (if repanic (handler_at s3 h) then Panicking v else Return tt,
     add_events (recovery_events capture h (entry_hub r s) r v s3) s3).
Proof.
  intros Hv H. rewrite handle_entry. unfold defer_. rewrite H.
  rewrite (recover_panic _ _ _ _ _ Hv).
  by destruct (repanic _).
Qed.
End Steps.

(** What the wrapped handler leaves behind is what the next handler
    left, with the calls of the recovery step added to the trace. *)
Lemma handle_adds_events mode capture h handler w r s :
  exists evs,
    snd (handle mode capture h handler w r s)
    = add_events evs
        (snd (http.ServeHTTP handler w (entry_request r s) (entry_world r s))).
Proof.
  destruct (http.ServeHTTP handler w (entry_request r s) (entry_world r s))
    as [[[]|v] s3] eqn:E.
  - exists []. rewrite (handle_returns _ _ _ _ _ _ _ _ E). cbn.
    unfold add_events. by rewrite app_nil_r, world_eta.
  - destruct (decide (v = Nil)) as [->|Hv].
    + exists []. rewrite (handle_recovers_nil _ _ _ _ _ _ _ _ E). cbn.
      unfold add_events. by rewrite app_nil_r, world_eta.
    + eexists. by rewrite (handle_recovers _ _ _ _ _ _ _ _ _ Hv E).
Qed.

Lemma New_eq options s :
  New options s =
  (Return (fresh (dom (handlers s))),
   set_handlers
     (<[fresh (dom (handlers s)) := configured options]> (handlers s)) s).
Proof.
  destruct options as [[] [] d]; unfold New, configured, address_of; cbn;
    destruct (d =? 0); reflexivity.
Qed.

Lemma New_handler_at options s :
  handler_at (snd (New options s)) (fresh (dom (handlers s)))
  = configured options.
Proof.
  rewrite New_eq. unfold handler_at. cbn. by rewrite lookup_insert_eq.
Qed.

(** ** The recovery step: report, flush, repanic *)

Lemma panics_with_run mode V handler w r s :
  panics_with mode V handler w r s ->
  next_run handler w r s
  = (Panicking (panic_value mode V), snd (next_run handler w r s)).
Proof.
  unfold panics_with. destruct (next_run handler w r s) as [o s3]. cbn.
  by intros ->.
Qed.

Lemma report_context_request r :
  Value (report_context r) RequestContextKey = Some (VRequest r).
Proof. reflexivity. Qed.

Lemma reports_recovery_events capture h hub r v s :
  reports (recovery_events capture h hub r v s) = [(hub, report_context r, v)].
Proof.
  unfold recovery_events. by destruct (_ && _).
Qed.

(** C1, as amended: for every wrapped handler that panics with a value
    [V] that is not [nil], the wrapper calls the hub's RecoverWithContext
    exactly once, on the hub of the request, with the value [V] and a
    context that holds the original inbound request under the request
    context key. *)
Theorem panic_reported_once mode capture h handler w r s V :
  V <> Nil ->
  panics_with mode V handler w r s ->
  reported_once mode capture h handler w r s V.
Proof.
  intros Hv Hp. apply panics_with_run in Hp.
  rewrite (panic_value_not_nil mode V Hv) in Hp.
  unfold reported_once.
  exists (recovery_events capture h (entry_hub r s) r V
            (snd (next_run handler w r s))), (report_context r).
  rewrite (handle_recovers mode capture h handler w r s V _ Hv Hp).
  split; [reflexivity|]. split.
  - apply reports_recovery_events.
  - apply report_context_request.
Qed.

Lemma panic_reported_once_witness :
  reported_once LegacyNilPanic sample.accepting 0%nat
    (sample.panicker LegacyNilPanic (AString "boom")) sample.w
    sample.request
    (sample.after_New (mkOptions true true (50 * time.Millisecond)))
    (AString "boom").
Proof.
  apply panic_reported_once.
  - discriminate.
  - reflexivity.
Defined.

(** C1 as it is written fails for [panic(nil)]: before Go 1.21
    [recover()] yields [nil] for it, the wrapper takes that for no
    panic, and nothing is reported although the panic is stopped; since
    Go 1.21 the value reported is the runtime's PanicNilError, not the
    [nil] the handler panicked with. *)
Lemma nil_panic_not_reported :
  (panics_with LegacyNilPanic Nil
     (sample.panicker LegacyNilPanic Nil) sample.w sample.request
     (sample.after_New (mkOptions true true 0))
   /\ ~ reported_once LegacyNilPanic sample.accepting 0%nat
        (sample.panicker LegacyNilPanic Nil) sample.w sample.request
        (sample.after_New (mkOptions true true 0)) Nil)
  /\ (panics_with PanicNilErrorSince121 Nil
        (sample.panicker PanicNilErrorSince121 Nil) sample.w sample.request
        (sample.after_New (mkOptions true true 0))
      /\ ~ reported_once PanicNilErrorSince121 sample.accepting 0%nat
           (sample.panicker PanicNilErrorSince121 Nil) sample.w sample.request
           (sample.after_New (mkOptions true true 0)) Nil).
Proof.
  split; (split; [reflexivity|]); intros (evs & c & Hlog & Hrep & _);
    vm_compute in Hlog.
  - destruct evs; discriminate.
  - destruct evs as [|e1 [|e2 [|e3 evs]]]; try discriminate.
    injection Hlog as <- <-. discriminate.
Qed.

(** C2, as amended: for every wrapped handler that panics with a value
    [V] that is not [nil], if the handler's repanic flag is true the
    panic leaves the wrapped handler with the same value [V], in a world
    whose trace already holds the fault report and, when applicable, the
    flush; and whatever the next handler did, if the repanic flag is
    false no panic leaves the wrapped handler. *)
Theorem repanic_after_report mode capture h handler w r s :
  let s3 := snd (next_run handler w r s) in
  (forall V,
      V <> Nil ->
      panics_with mode V handler w r s ->
      repanic (handler_at s3 h) = true ->
      handle mode capture h handler w r s
      = (Panicking V,
         add_events (recovery_events capture h (entry_hub r s) r V s3) s3))
  /\ (repanic (handler_at s3 h) = false ->
      fst (handle mode capture h handler w r s) = Return tt).
Proof.
  intros s3. split.
  - intros V Hv Hp Hr. apply panics_with_run in Hp.
    rewrite (panic_value_not_nil mode V Hv) in Hp.
    rewrite (handle_recovers mode capture h handler w r s V _ Hv Hp).
    fold s3. by rewrite Hr.
  - intros Hr. subst s3. unfold next_run in Hr.
    destruct (http.ServeHTTP handler w (entry_request r s) (entry_world r s))
      as [[[]|v] s3] eqn:E.
    + by rewrite (handle_returns _ _ _ _ _ _ _ _ E).
    + destruct (decide (v = Nil)) as [->|Hv].
      * by rewrite (handle_recovers_nil _ _ _ _ _ _ _ _ E).
      * rewrite (handle_recovers _ _ _ _ _ _ _ _ _ Hv E).
        cbn in Hr. by rewrite Hr.
Qed.

Lemma repanic_after_report_witness :
  handle LegacyNilPanic sample.accepting 0%nat
    (sample.panicker LegacyNilPanic (AString "boom")) sample.w
    sample.request
    (sample.after_New (mkOptions true true (50 * time.Millisecond)))
  = (Panicking (AString "boom"),
     add_events
       [EvRecoverWithContext 1%nat (report_context sample.request)
          (AString "boom");
        EvFlush 1%nat (50 * time.Millisecond)]
       (snd (next_run (sample.panicker LegacyNilPanic (AString "boom"))
               sample.w sample.request
               (sample.after_New
                  (mkOptions true true (50 * time.Millisecond))))))
  /\ fst (handle LegacyNilPanic sample.accepting 0%nat
            (sample.panicker LegacyNilPanic (AString "boom")) sample.w
            sample.request
            (sample.after_New (mkOptions false true 0)))
     = Return tt.
Proof.
  split.
  - apply (proj1 (repanic_after_report LegacyNilPanic sample.accepting 0%nat
                    (sample.panicker LegacyNilPanic (AString "boom"))
                    sample.w sample.request
                    (sample.after_New
                       (mkOptions true true (50 * time.Millisecond))))
             (AString "boom")).
    + discriminate.
    + reflexivity.
    + reflexivity.
  - apply (proj2 (repanic_after_report LegacyNilPanic sample.accepting 0%nat
                    (sample.panicker LegacyNilPanic (AString "boom"))
                    sample.w sample.request
                    (sample.after_New (mkOptions false true 0)))).
    reflexivity.
Defined.

(** C2 as it is written fails for [panic(nil)] with the repanic flag
    set: before Go 1.21 the panic is stopped and not raised again, so
    the wrapped handler returns; since Go 1.21 the panic that leaves
    carries the runtime's PanicNilError, not [nil]. *)
Lemma nil_panic_not_raised_again :
  repanic (handler_at (sample.after_New (mkOptions true false 0)) 0%nat)
  = true
  /\ (panics_with LegacyNilPanic Nil
        (sample.panicker LegacyNilPanic Nil) sample.w sample.request
        (sample.after_New (mkOptions true false 0))
      /\ fst (handle LegacyNilPanic sample.accepting 0%nat
                (sample.panicker LegacyNilPanic Nil) sample.w sample.request
                (sample.after_New (mkOptions true false 0)))
         <> Panicking Nil)
  /\ (panics_with PanicNilErrorSince121 Nil
        (sample.panicker PanicNilErrorSince121 Nil) sample.w sample.request
        (sample.after_New (mkOptions true false 0))
      /\ fst (handle PanicNilErrorSince121 sample.accepting 0%nat
                (sample.panicker PanicNilErrorSince121 Nil) sample.w
                sample.request
                (sample.after_New (mkOptions true false 0)))
         <> Panicking Nil).
Proof.
  split; [reflexivity|].
  split; (split; [reflexivity|]); vm_compute; discriminate.
Qed.

Lemma flushes_recovery_events capture h hub r v s :
  flushes (recovery_events capture h hub r v s)
  = if bool_decide (capture s hub (report_context r) v <> None)
       && waitForDelivery (handler_at s h)
    then [(hub, timeout (handler_at s h))]
    else [].
Proof.
  unfold recovery_events. by destruct (_ && _).
Qed.

(** C3: after the next handler the wrapper calls the hub's flush if and
    only if it made a fault report that returned an event identifier
    and waitForDelivery is true, and then once and with the handler's
    timeout; when no panic was recovered (the next handler returned, or
    [recover()] yielded [nil]) it adds no call at all; and whatever the
    next handler did, when waitForDelivery is false the wrapper calls no
    flush. *)
Theorem flush_iff_reported_and_waiting mode capture h handler w r s :
  let s3 := snd (next_run handler w r s) in
  let s4 := snd (handle mode capture h handler w r s) in
  exists evs,
    log s4 = log s3 ++ evs
    /\ (forall V,
           V <> Nil ->
           panics_with mode V handler w r s ->
           let eventID :=
             capture s3 (entry_hub r s) (report_context r) V in
           (eventID <> None /\ waitForDelivery (handler_at s3 h) = true ->
            flushes evs = [(entry_hub r s, timeout (handler_at s3 h))])
           /\ (~ (eventID <> None
                  /\ waitForDelivery (handler_at s3 h) = true) ->
               flushes evs = []))
    /\ (waitForDelivery (handler_at s3 h) = false -> flushes evs = [])
    /\ (flushes evs = [(entry_hub r s, timeout (handler_at s3 h))]
        <-> exists c v,
              reports evs = [(entry_hub r s, c, v)]
              /\ capture s3 (entry_hub r s) c v <> None
              /\ waitForDelivery (handler_at s3 h) = true)
    /\ (flushes evs = []
        \/ flushes evs = [(entry_hub r s, timeout (handler_at s3 h))])
    /\ ((forall v, fst (next_run handler w r s) = Panicking v -> v = Nil) ->
        evs = []).
Proof.
  intros s3 s4. subst s3 s4. unfold next_run, panics_with.
  destruct (http.ServeHTTP handler w (entry_request r s) (entry_world r s))
    as [[[]|v] s3] eqn:E; cbn [fst snd].
  - exists []. rewrite (handle_returns _ _ _ _ _ _ _ _ E). cbn.
    rewrite app_nil_r. split; [done|]. split; [|split; [done|]].
    + unfold next_run. rewrite E. cbn. intros V HV HP.
      destruct mode, V; discriminate.
    + split; [|split; [by left|done]].
      split; [discriminate|]. by intros (c & v & Hrep & _).
  - destruct (decide (v = Nil)) as [->|Hv].
    + exists []. rewrite (handle_recovers_nil _ _ _ _ _ _ _ _ E). cbn.
      rewrite app_nil_r. split; [done|]. split; [|split; [done|]].
      * unfold next_run. rewrite E. cbn. intros V HV HP.
        rewrite (panic_value_not_nil mode V HV) in HP. congruence.
      * split; [|split; [by left|done]].
        split; [discriminate|]. by intros (c & v & Hrep & _).
    + exists (recovery_events capture h (entry_hub r s) r v s3).
      rewrite (handle_recovers _ _ _ _ _ _ _ _ _ Hv E). cbn [snd].
      split; [done|].
      rewrite flushes_recovery_events, reports_recovery_events.
      split; [|split; [|split; [|split]]].
      * unfold next_run. rewrite E. cbn.
        intros V HV HP. rewrite (panic_value_not_nil mode V HV) in HP.
        injection HP as ->. split.
        -- intros [Hid Hw]. rewrite Hw, (bool_decide_eq_true_2 _ Hid).
           reflexivity.
        -- intros Hn. destruct (bool_decide _) eqn:Hb; [|done].
           apply bool_decide_eq_true_1 in Hb.
           destruct (waitForDelivery _) eqn:Hw; [|done].
           by destruct Hn.
      * intros ->. by rewrite andb_false_r.
      * split.
        -- intros Hf. exists (report_context r), v. split; [done|].
           destruct (bool_decide _) eqn:Hb; [|discriminate].
           apply bool_decide_eq_true_1 in Hb.
           by destruct (waitForDelivery _).
        -- intros (c & v' & Hrep & Hid & Hw). injection Hrep as <- <-.
           by rewrite Hw, (bool_decide_eq_true_2 _ Hid).
      * destruct (_ && _); [by right|by left].
      * intros Hnil. by specialize (Hnil v eq_refl).
Qed.

(** C4: for every wrapped handler that returns without panicking, the
    wrapped form ends exactly as the handler does on the request that
    carries the hub, with the same trace of writes to the response
    writer, and the wrapper makes no fault report. *)
Theorem no_panic_is_transparent mode capture h handler w r s :
  fst (next_run handler w r s) = Return tt ->
  handle mode capture h handler w r s
  = http.ServeHTTP handler w (entry_request r s) (entry_world r s)
  /\ reports (log (snd (handle mode capture h handler w r s)))
     = reports (log (snd (next_run handler w r s))).
Proof.
  unfold next_run.
  destruct (http.ServeHTTP handler w (entry_request r s) (entry_world r s))
    as [o s3] eqn:E.
  cbn. intros ->. by rewrite (handle_returns _ _ _ _ _ _ _ _ E).
Qed.

Lemma no_panic_is_transparent_witness :
  handle LegacyNilPanic sample.accepting 0%nat
    (http.HandlerFunc_Handler sample.ok) sample.w sample.request
    (sample.after_New (mkOptions false false 0))
  = (Return tt,
     add_events [EvWriteHeader sample.w 200; EvWrite sample.w "ok"]
       (entry_world sample.request
          (sample.after_New (mkOptions false false 0)))).
Proof.
  rewrite (proj1 (no_panic_is_transparent LegacyNilPanic sample.accepting
                    0%nat (http.HandlerFunc_Handler sample.ok) sample.w
                    sample.request
                    (sample.after_New (mkOptions false false 0))
                    eq_refl)).
  reflexivity.
Defined.

Lemma flush_iff_reported_and_waiting_witness :
  exists evs,
    log (snd (handle LegacyNilPanic sample.accepting 0%nat
                (sample.panicker LegacyNilPanic (AString "boom")) sample.w
                sample.request
                (sample.after_New
                   (mkOptions true true (50 * time.Millisecond)))))
    = log (snd (next_run (sample.panicker LegacyNilPanic (AString "boom"))
                  sample.w sample.request
                  (sample.after_New
                     (mkOptions true true (50 * time.Millisecond)))))
      ++ evs
    /\ flushes evs = [(1%nat, 50 * time.Millisecond)].
Proof.
  destruct (flush_iff_reported_and_waiting LegacyNilPanic sample.accepting
              0%nat (sample.panicker LegacyNilPanic (AString "boom"))
              sample.w sample.request
              (sample.after_New
                 (mkOptions true true (50 * time.Millisecond))))
    as (evs & Hlog & Hiff & _).
  exists evs. split; [exact Hlog|].
  apply (Hiff (AString "boom")).
  - discriminate.
  - reflexivity.
  - split; [discriminate|reflexivity].
Defined.

(** ** The hub of the request *)

Lemma entry_hub_bound r s :
  sentry.GetHubFromContext (Context (entry_request r s))
  = Some (entry_hub r s).
Proof. unfold entry_request. by destruct r. Qed.

Lemma entry_world_handlers r s : handlers (entry_world r s) = handlers s.
Proof.
  unfold entry_world. by destruct (sentry.GetHubFromContext (Context r)).
Qed.

(** C5: if the context of the incoming request carries a hub, the
    wrapper uses that very hub and clones nothing; if it carries none,
    the wrapper clones the process-wide current hub into a new one; and
    in both cases the request the next handler is called with has that
    hub bound in its context under the well-known key. *)
Theorem hub_reused_or_cloned mode capture h handler w r s :
  (forall hub, sentry.GetHubFromContext (Context r) = Some hub ->
     entry_hub r s = hub
     /\ clones (log (entry_world r s)) = clones (log s)
     /\ forall p, p <> hub -> hubs (entry_world r s) !! p = hubs s !! p)
  /\ (sentry.GetHubFromContext (Context r) = None ->
      hubs s !! entry_hub r s = None
      /\ log (entry_world r s)
         = log s ++ [EvClone (current_hub s) (entry_hub r s);
                     EvSetRequest (entry_hub r s) r]
      /\ hub_at (entry_world r s) (entry_hub r s)
         = with_request r (hub_at s (current_hub s))
      /\ forall p, p <> entry_hub r s ->
           hubs (entry_world r s) !! p = hubs s !! p)
  /\ sentry.GetHubFromContext (Context (entry_request r s))
     = Some (entry_hub r s)
  /\ handle mode capture h handler w r s
     = defer_ (recoverWithSentry mode capture h (entry_hub r s) r)
         (http.ServeHTTP handler w (entry_request r s)) (entry_world r s).
Proof.
  split; [|split; [|split]].
  - intros hub E. unfold entry_hub, entry_world. rewrite E. cbn.
    split; [done|]. split.
    + rewrite clones_app. cbn. by rewrite app_nil_r.
    + intros p Hp. by rewrite lookup_insert_ne.
  - intros E. unfold entry_hub, entry_world, hub_at. rewrite E. cbn.
    split; [|split; [done|split]].
    + apply not_elem_of_dom, is_fresh.
    + by rewrite lookup_insert_eq.
    + intros p Hp. by rewrite lookup_insert_ne.
  - apply entry_hub_bound.
  - apply handle_entry.
Qed.

Lemma hub_reused_or_cloned_witness :
  (entry_hub sample.request_with_hub sample.start = 0%nat
   /\ clones (log (entry_world sample.request_with_hub sample.start)) = [])
  /\ (entry_hub sample.request sample.start = 1%nat
      /\ clones (log (entry_world sample.request sample.start))
         = [(0%nat, 1%nat)]).
Proof.
  split.
  - destruct (proj1 (hub_reused_or_cloned LegacyNilPanic sample.accepting
                       0%nat (http.HandlerFunc_Handler sample.ok) sample.w
                       sample.request_with_hub sample.start)
                0%nat eq_refl) as (H1 & H2 & _).
    split; [exact H1 | exact H2].
  - destruct (proj1 (proj2
                (hub_reused_or_cloned LegacyNilPanic sample.accepting
                   0%nat (http.HandlerFunc_Handler sample.ok) sample.w
                   sample.request sample.start))
                eq_refl) as (H1 & H2 & _).
    split; [reflexivity|]. rewrite H2. reflexivity.
Defined.

(** C10: when the context of the incoming request already carries a
    hub, the wrapper sets the request on the scope of that hub, in
    place and without making another; and unless the next handler
    changes that hub again, the scope still holds the request after the
    wrapped handler has run, whether it returned or panicked. *)
Theorem shared_hub_mutated_in_place mode capture h handler w r s hub :
  sentry.GetHubFromContext (Context r) = Some hub ->
  hubs (entry_world r s) = <[hub := with_request r (hub_at s hub)]> (hubs s)
  /\ (hub_at (snd (next_run handler w r s)) hub
        = hub_at (entry_world r s) hub ->
      scope_request
        (hub_at (snd (handle mode capture h handler w r s)) hub)
      = Some r).
Proof.
  intros E. split.
  - unfold entry_world. by rewrite E.
  - intros Hframe.
    destruct (handle_adds_events mode capture h handler w r s) as [evs ->].
    change (hub_at (add_events evs ?x) hub) with (hub_at x hub).
    fold (next_run handler w r s). rewrite Hframe.
    unfold hub_at, entry_world. rewrite E. cbn.
    by rewrite lookup_insert_eq.
Qed.

Lemma shared_hub_mutated_in_place_witness :
  scope_request (hub_at sample.start 0%nat) = None
  /\ scope_request
       (hub_at (snd (handle LegacyNilPanic sample.accepting 0%nat
                       (sample.panicker LegacyNilPanic (AString "boom"))
                       sample.w sample.request_with_hub sample.start))
          0%nat)
     = Some sample.request_with_hub.
Proof.
  split; [reflexivity|].
  apply (shared_hub_mutated_in_place LegacyNilPanic sample.accepting 0%nat
           (sample.panicker LegacyNilPanic (AString "boom")) sample.w
           sample.request_with_hub sample.start 0%nat eq_refl).
  reflexivity.
Defined.

(** ** Construction *)

(** C6: for every options value given to [New], a Timeout left unset
    (zero) gives a timeout of 2 seconds, a Repanic or WaitForDelivery
    left unset (false) gives a false flag, and a field that is set
    reaches the handler as given. *)
Theorem New_defaults options s :
  let h := fresh (dom (handlers s)) in
  let made := handler_at (snd (New options s)) h in
  fst (New options s) = Return h
  /\ (Timeout options = 0 -> timeout made = 2 * time.Second)
  /\ (Repanic options = false -> repanic made = false)
  /\ (WaitForDelivery options = false -> waitForDelivery made = false)
  /\ (Timeout options <> 0 -> timeout made = Timeout options)
  /\ (Repanic options = true -> repanic made = true)
  /\ (WaitForDelivery options = true -> waitForDelivery made = true).
Proof.
  intros h made. subst h made. rewrite New_handler_at, New_eq.
  unfold configured. cbn [fst repanic waitForDelivery timeout].
  split; [reflexivity|].
  destruct (Z.eqb_spec (Timeout options) 0) as [E|E];
    repeat split; intros; (congruence || lia).
Qed.

Lemma New_defaults_witness :
  (timeout (handler_at
              (snd (New (literal (mkOptionsLit None None None)) sample.start))
              0%nat) = 2000000000
   /\ repanic (handler_at
                 (snd (New (literal (mkOptionsLit None None None))
                         sample.start))
                 0%nat) = false)
  /\ (timeout (handler_at
                 (snd (New (mkOptions true true (50 * time.Millisecond))
                         sample.start))
                 0%nat) = 50000000
      /\ waitForDelivery
           (handler_at
              (snd (New (mkOptions true true (50 * time.Millisecond))
                      sample.start))
              0%nat) = true).
Proof.
  pose proof (New_defaults (literal (mkOptionsLit None None None))
                sample.start) as (_ & Ht & Hr & _).
  pose proof (New_defaults (mkOptions true true (50 * time.Millisecond))
                sample.start) as (_ & _ & _ & _ & Ht' & _ & Hw').
  split; split.
  - apply Ht. reflexivity.
  - apply Hr. reflexivity.
  - apply Ht'. discriminate.
  - apply Hw'. reflexivity.
Defined.

(** C9: [New] stores every Timeout other than zero as it is, a negative
    one too; a Timeout of zero gives the 2-second default, so a literal
    that sets Timeout to zero makes the same handler as one that leaves
    it out. *)
Theorem New_timeout_verbatim options s :
  let made := handler_at (snd (New options s)) (fresh (dom (handlers s))) in
  (Timeout options <> 0 -> timeout made = Timeout options)
  /\ (Timeout options < 0 -> timeout made = Timeout options)
  /\ (Timeout options = 0 -> timeout made = 2 * time.Second)
  /\ forall a b,
       New (literal (mkOptionsLit a b (Some 0))) s
       = New (literal (mkOptionsLit a b None)) s.
Proof.
  intros made. subst made. rewrite New_handler_at. unfold configured. cbn.
  destruct (Z.eqb_spec (Timeout options) 0) as [E|E];
    repeat split; intros; (congruence || lia).
Qed.

Lemma New_timeout_verbatim_witness :
  timeout (handler_at (snd (New (mkOptions false true (-5)) sample.start))
             0%nat) = -5
  /\ timeout (handler_at (snd (New (mkOptions false true 0) sample.start))
                0%nat) = 2000000000.
Proof.
  split.
  - apply (proj1 (proj2 (New_timeout_verbatim (mkOptions false true (-5))
                           sample.start))).
    reflexivity.
  - apply (proj1 (proj2 (proj2 (New_timeout_verbatim
                                  (mkOptions false true 0) sample.start)))).
    reflexivity.
Defined.

(** C7: for every handler [h] and handler function [f], what HandleFunc
    returns behaves on every response writer, request and world as what
    Handle returns for [f]: both are the one [handle]. *)
Theorem HandleFunc_is_Handle mode capture h (f : http.HandlerFunc) w r s :
  HandleFunc mode capture h f w r s
  = http.ServeHTTP (Handle mode capture h (http.HandlerFunc_Handler f)) w r s
  /\ HandleFunc mode capture h f
     = handle mode capture h (http.HandlerFunc_Handler f).
Proof. split; reflexivity. Qed.

(** C8: [New] always returns, at a fresh address, and changes nothing
    else: no hub, no call in the trace, no handler made before.  After
    it nothing writes to a handler: not the steps of the wrapped handler
    before the next handler runs, not the recovery step, so the wrapped
    handler leaves the handlers as the next handler left them. *)
Theorem Handler_never_mutated mode capture options h handler w r s f :
  (exists p,
      New options s
      = (Return p, set_handlers (<[p := configured options]> (handlers s)) s)
      /\ handlers s !! p = None
      /\ hubs (snd (New options s)) = hubs s
      /\ current_hub (snd (New options s)) = current_hub s
      /\ log (snd (New options s)) = log s
      /\ forall q, q <> p ->
           handlers (snd (New options s)) !! q = handlers s !! q)
  /\ handlers (entry_world r s) = handlers s
  /\ handlers (heap (snd (recoverWithSentry mode capture h
                            (entry_hub r s) r f)))
     = handlers (heap f)
  /\ handlers (snd (handle mode capture h handler w r s))
     = handlers (snd (next_run handler w r s)).
Proof.
  split; [|split; [|split]].
  - exists (fresh (dom (handlers s))). rewrite New_eq. cbn.
    split; [done|]. split; [apply not_elem_of_dom, is_fresh|].
    repeat (split; [done|]). intros q Hq. by rewrite lookup_insert_ne.
  - apply entry_world_handlers.
  - destruct f as [[v|] s3].
    + destruct (decide (v = Nil)) as [->|Hv].
      * by rewrite recover_nil.
      * by rewrite (recover_panic _ _ _ _ _ _ _ Hv).
    + by rewrite recover_no_panic.
  - by destruct (handle_adds_events mode capture h handler w r s) as [evs ->].
Qed.

Lemma Handler_never_mutated_witness :
  handlers
    (snd (handle LegacyNilPanic sample.accepting 0%nat
            (sample.panicker LegacyNilPanic (AString "boom")) sample.w
            sample.request
            (sample.after_New (mkOptions true true (50 * time.Millisecond)))))
  !! 0%nat
  = Some (mkHandler true true 50000000).
Proof.
  rewrite (proj2 (proj2 (proj2
             (Handler_never_mutated LegacyNilPanic sample.accepting
                (mkOptions true true (50 * time.Millisecond)) 0%nat
                (sample.panicker LegacyNilPanic (AString "boom")) sample.w
                sample.request
                (sample.after_New
                   (mkOptions true true (50 * time.Millisecond)))
                (mkFrame None sample.start))))).
  reflexivity.
Defined.

(** ** One middleware around another *)

Lemma entry_hub_again r s s' :
  entry_hub (entry_request r s) s' = entry_hub r s.
Proof. unfold entry_hub at 1. by rewrite entry_hub_bound. Qed.

Lemma entry_world_again r s s' :
  entry_world (entry_request r s) s'
  = {| handlers := handlers s';
       hubs := <[entry_hub r s :=
                   with_request (entry_request r s)
                     (hub_at s' (entry_hub r s))]> (hubs s');
       current_hub := current_hub s';
       log := log s' ++ [EvSetRequest (entry_hub r s) (entry_request r s)] |}.
Proof. unfold entry_world at 1. by rewrite entry_hub_bound. Qed.

Lemma handler_at_add_events evs s h :
  handler_at (add_events evs s) h = handler_at s h.
Proof. reflexivity. Qed.

Lemma defer_same_body d body body' s :
  body s = body' s -> defer_ d body s = defer_ d body' s.
Proof. unfold defer_. by intros ->. Qed.

(** X1: in [outer.Handle(inner.Handle(f))] the inner middleware takes
    the hub the outer one bound to the request: [f] runs under the two
    recovery steps, both on that one hub, with a request that has that
    hub bound, in a world where the inner entry steps cloned nothing,
    allocated no hub, and set the inner request, the copy that carries
    the hub, on the scope of that same hub. *)
Theorem chain_shares_hub mode capture outer inner handler w r s :
  chained mode capture outer inner handler w r s
  = defer_ (recoverWithSentry mode capture outer (entry_hub r s) r)
      (fun _ =>
         defer_ (recoverWithSentry mode capture inner (entry_hub r s)
                   (entry_request r s))
           (http.ServeHTTP handler w (chained_request r s))
           (chained_world r s))
      (entry_world r s)
  /\ entry_hub (entry_request r s) (entry_world r s) = entry_hub r s
  /\ clones (log (chained_world r s)) = clones (log (entry_world r s))
  /\ dom (hubs (chained_world r s)) = dom (hubs (entry_world r s))
  /\ scope_request (hub_at (chained_world r s) (entry_hub r s))
     = Some (entry_request r s)
  /\ sentry.GetHubFromContext (Context (chained_request r s))
     = Some (entry_hub r s).
Proof.
  split.
  { unfold chained. rewrite handle_entry. apply defer_same_body.
    change (http.ServeHTTP (Handle mode capture inner handler) w
              (entry_request r s) (entry_world r s))
      with (handle mode capture inner handler w
              (entry_request r s) (entry_world r s)).
    by rewrite handle_entry, entry_hub_again. }
  unfold chained_world, chained_request.
  rewrite entry_world_again. cbn [log hubs].
  split; [apply entry_hub_again|]. split; [|split; [|split]].
  - rewrite clones_app. cbn. by rewrite app_nil_r.
  - rewrite dom_insert_L. apply subseteq_union_1_L, singleton_subseteq_l.
    apply elem_of_dom. unfold entry_world, entry_hub.
    destruct (sentry.GetHubFromContext (Context r)); cbn;
      rewrite lookup_insert_eq; eauto.
  - unfold hub_at at 1. cbn [hubs]. by rewrite lookup_insert_eq.
  - by rewrite entry_hub_bound, entry_hub_again.
Qed.

(** X2: when the handler inside two middlewares panics with a value
    that is not [nil], the inner middleware reports it; if the inner one
    does not raise it again the outer one sees a normal return and
    reports nothing; if it does, the outer one reports the same value a
    second time, on the same hub, and raises it again or not by its own
    flag. *)
Theorem chain_reports_per_layer mode capture outer inner handler w r s V :
  let s3 := snd (http.ServeHTTP handler w (chained_request r s)
                   (chained_world r s)) in
  let run := chained mode capture outer inner handler w r s in
  V <> Nil ->
  fst (http.ServeHTTP handler w (chained_request r s) (chained_world r s))
    = Panicking (panic_value mode V) ->
  (repanic (handler_at s3 inner) = false ->
   fst run = Return tt
   /\ reports (log (snd run))
      = reports (log s3)
        ++ [(entry_hub r s, report_context (entry_request r s), V)])
  /\ (repanic (handler_at s3 inner) = true ->
      fst run = (if repanic (handler_at s3 outer)
                 then Panicking V else Return tt)
      /\ reports (log (snd run))
         = reports (log s3)
           ++ [(entry_hub r s, report_context (entry_request r s), V);
               (entry_hub r s, report_context r, V)]).
Proof.
  intros s3 run Hv Hp. subst s3 run. unfold chained.
  rewrite (panic_value_not_nil mode V Hv) in Hp.
  destruct (http.ServeHTTP handler w (chained_request r s) (chained_world r s))
    as [o s3] eqn:E. cbn in Hp. subst o. cbn [snd].
  pose proof (handle_recovers mode capture inner handler w
                (entry_request r s) (entry_world r s) V s3 Hv E) as Hin.
  rewrite entry_hub_again in Hin.
  split; intros Hr; rewrite Hr in Hin.
  - rewrite (handle_returns mode capture outer
               (Handle mode capture inner handler) w r s _ Hin).
    cbn [fst snd add_events log]. split; [done|].
    by rewrite reports_app, reports_recovery_events.
  - rewrite (handle_recovers mode capture outer
               (Handle mode capture inner handler) w r s V _ Hv Hin).
    cbn [fst snd]. rewrite handler_at_add_events. split; [done|].
    cbn [add_events log].
    rewrite !reports_app, !reports_recovery_events, <- app_assoc.
    reflexivity.
Qed.

Lemma chain_reports_per_layer_witness :
  (fst (chained LegacyNilPanic sample.accepting 1%nat 0%nat
          (sample.panicker LegacyNilPanic (AString "boom"))
          sample.w sample.request sample2.two_handlers)
   = Return tt
   /\ length (reports (log (snd
        (chained LegacyNilPanic sample.accepting 1%nat 0%nat
           (sample.panicker LegacyNilPanic (AString "boom"))
           sample.w sample.request sample2.two_handlers)))) = 2%nat)
  /\ length (reports (log (snd
       (chained LegacyNilPanic sample.accepting 0%nat 1%nat
          (sample.panicker LegacyNilPanic (AString "boom"))
          sample.w sample.request sample2.two_handlers)))) = 1%nat.
Proof.
  split.
  - destruct (proj2 (chain_reports_per_layer LegacyNilPanic sample.accepting
                       1%nat 0%nat
                       (sample.panicker LegacyNilPanic (AString "boom"))
                       sample.w sample.request sample2.two_handlers
                       (AString "boom") ltac:(discriminate) eq_refl)
                eq_refl) as [H1 H2].
    split; [exact H1|]. rewrite H2. reflexivity.
  - destruct (proj1 (chain_reports_per_layer LegacyNilPanic sample.accepting
                       0%nat 1%nat
                       (sample.panicker LegacyNilPanic (AString "boom"))
                       sample.w sample.request sample2.two_handlers
                       (AString "boom") ltac:(discriminate) eq_refl)
                eq_refl) as [_ H2].
    rewrite H2. reflexivity.
Defined.

(** ** What the wrapper hands on, and what it leaves alone *)

Lemma context_not_its_child c k v : c <> WithValue c k v.
Proof.
  revert k v. induction c as [|p IH k' v']; intros k v; [discriminate|].
  intros E. injection E as E1 E2 E3. by apply (IH k' v').
Qed.

Lemma Value_other_key c k k' v :
  k <> k' -> Value (WithValue c k' v) k = Value c k.
Proof.
  intros Hk. cbn. destruct k, k'; cbn; try done.
  rewrite bool_decide_eq_false_2; [done|]. congruence.
Qed.

Lemma handle_adds_recovery_trace mode capture h handler w r s :
  exists evs,
    snd (handle mode capture h handler w r s)
    = add_events evs (snd (next_run handler w r s))
    /\ recovery_trace (entry_hub r s) evs.
Proof.
  unfold next_run.
  destruct (http.ServeHTTP handler w (entry_request r s) (entry_world r s))
    as [[[]|v] s3] eqn:E.
  - exists []. rewrite (handle_returns _ _ _ _ _ _ _ _ E). cbn.
    unfold add_events. rewrite app_nil_r, world_eta. split; [done|constructor].
  - destruct (decide (v = Nil)) as [->|Hv].
    + exists []. rewrite (handle_recovers_nil _ _ _ _ _ _ _ _ E). cbn.
      unfold add_events. rewrite app_nil_r, world_eta.
      split; [done|constructor].
    + eexists. rewrite (handle_recovers _ _ _ _ _ _ _ _ _ Hv E).
      split; [reflexivity|]. unfold recovery_events.
      destruct (_ && _); constructor.
Qed.

(** X3: the request the next handler is called with is the inbound one
    in all but the hub: same method, URL, remote address and headers,
    and every value the inbound context holds under another key than the
    hub's is still there. *)
Theorem next_request_keeps_the_rest mode capture h handler w r s :
  handle mode capture h handler w r s
  = defer_ (recoverWithSentry mode capture h (entry_hub r s) r)
      (http.ServeHTTP handler w (entry_request r s)) (entry_world r s)
  /\ Method (entry_request r s) = Method r
  /\ URL (entry_request r s) = URL r
  /\ RemoteAddr (entry_request r s) = RemoteAddr r
  /\ Header (entry_request r s) = Header r
  /\ forall k, k <> HubContextKey ->
       Value (Context (entry_request r s)) k = Value (Context r) k.
Proof.
  split; [apply handle_entry|].
  unfold entry_request. destruct r as [m u a hd c]. cbn.
  repeat (split; [reflexivity|]).
  intros k Hk. by destruct k.
Qed.

Lemma next_request_keeps_the_rest_witness :
  Value (Context (entry_request sample2.request_with_user sample.start))
    (OtherKey "user")
  = Some (VAny (AString "ada")).
Proof.
  rewrite (proj2 (proj2 (proj2 (proj2 (proj2
             (next_request_keeps_the_rest LegacyNilPanic sample.accepting
                0%nat (http.HandlerFunc_Handler sample.ok) sample.w
                sample2.request_with_user sample.start)))))
             (OtherKey "user")).
  - reflexivity.
  - discriminate.
Defined.

(** X4: the context of the fault report is built on the context of the
    inbound request, not on the one handed to the next handler: under
    every key but the request's it holds what the inbound context holds,
    so a hub the wrapper had to clone is not in it, and the request it
    holds under the request key is the inbound one, not the copy that
    carries the hub. *)
Theorem report_made_with_inbound_context mode capture h handler w r s V :
  V <> Nil ->
  panics_with mode V handler w r s ->
  exists evs c,
    log (snd (handle mode capture h handler w r s))
      = log (snd (next_run handler w r s)) ++ evs
    /\ reports evs = [(entry_hub r s, c, V)]
    /\ (forall k, k <> RequestContextKey ->
          Value c k = Value (Context r) k)
    /\ sentry.GetHubFromContext c = sentry.GetHubFromContext (Context r)
    /\ Value c RequestContextKey = Some (VRequest r)
    /\ Value c RequestContextKey <> Some (VRequest (entry_request r s)).
Proof.
  intros Hv Hp. apply panics_with_run in Hp.
  rewrite (panic_value_not_nil mode V Hv) in Hp.
  exists (recovery_events capture h (entry_hub r s) r V
            (snd (next_run handler w r s))), (report_context r).
  rewrite (handle_recovers mode capture h handler w r s V _ Hv Hp).
  split; [reflexivity|]. split; [apply reports_recovery_events|].
  split; [|split; [|split]].
  - intros k Hk. by apply Value_other_key.
  - unfold sentry.GetHubFromContext, report_context.
    by rewrite Value_other_key.
  - apply report_context_request.
  - rewrite report_context_request. intros E. injection E as E.
    unfold entry_request in E. destruct r as [m u a hd c]. cbn in E.
    injection E as E. by apply context_not_its_child in E.
Qed.

Lemma report_made_with_inbound_context_witness :
  exists evs c,
    reports evs = [(1%nat, c, AString "boom")]
    /\ sentry.GetHubFromContext c = None
    /\ Value c (OtherKey "user") = Some (VAny (AString "ada"))
    /\ Value c RequestContextKey
       = Some (VRequest sample2.request_with_user).
Proof.
  destruct (report_made_with_inbound_context LegacyNilPanic sample.accepting
              0%nat (sample.panicker LegacyNilPanic (AString "boom"))
              sample.w sample2.request_with_user
              (sample.after_New (mkOptions false false 0))
              (AString "boom") ltac:(discriminate) eq_refl)
    as (evs & c & _ & Hrep & Hkeys & Hhub & Hreq & _).
  exists evs, c. split; [exact Hrep|]. split; [|split].
  - rewrite Hhub. reflexivity.
  - rewrite Hkeys; [reflexivity|discriminate].
  - exact Hreq.
Defined.

(** X5: for a request without a hub, the process-wide current hub, once
    it exists, is only cloned, never written: the clone is at another
    address and the wrapper leaves the current hub as it found it, and
    after the next handler the recovery step changes no hub at all. *)
Theorem current_hub_only_cloned mode capture h handler w r s :
  sentry.GetHubFromContext (Context r) = None ->
  is_Some (hubs s !! current_hub s) ->
  entry_hub r s <> current_hub s
  /\ hubs (entry_world r s) !! current_hub s = hubs s !! current_hub s
  /\ current_hub (entry_world r s) = current_hub s
  /\ hubs (snd (handle mode capture h handler w r s))
     = hubs (snd (next_run handler w r s))
  /\ current_hub (snd (handle mode capture h handler w r s))
     = current_hub (snd (next_run handler w r s)).
Proof.
  intros E Hcur.
  assert (Hne : entry_hub r s <> current_hub s).
  { intros Heq. unfold entry_hub in Heq. rewrite E in Heq.
    apply elem_of_dom in Hcur. rewrite <- Heq in Hcur.
    by apply is_fresh in Hcur. }
  split; [exact Hne|].
  destruct (handle_adds_recovery_trace mode capture h handler w r s)
    as (evs & -> & _).
  unfold entry_world, entry_hub in *. rewrite E in *. cbn.
  by rewrite lookup_insert_ne.
Qed.

Lemma current_hub_only_cloned_witness :
  hubs (entry_world sample.request sample.start) !! 0%nat
  = Some empty_Hub.
Proof.
  exact (proj1 (proj2
           (current_hub_only_cloned LegacyNilPanic sample.accepting 0%nat
              (http.HandlerFunc_Handler sample.ok) sample.w
              sample.request sample.start eq_refl
              (ex_intro _ empty_Hub eq_refl)))).
Defined.

(** ** From the options to the recovery *)

(** X6: a handler made by [New] recovers a panic as its options say.
    When the next handler panics with a value that is not [nil] and has
    not written to the handler, the panic leaves again exactly when
    Repanic was set, and after the report a flush is made exactly when
    the client returned an event identifier and WaitForDelivery was set,
    with the Timeout of the options, or 2 seconds when that is zero. *)
Theorem New_then_recover mode capture options s0 handler w r V :
  let h := fresh (dom (handlers s0)) in
  let s := snd (New options s0) in
  let s3 := snd (next_run handler w r s) in
  let hub := entry_hub r s in
  V <> Nil ->
  panics_with mode V handler w r s ->
  handler_at s3 h = handler_at s h ->
  handle mode capture h handler w r s
  = (if Repanic options then Panicking V else Return tt,
     add_events
       (EvRecoverWithContext hub (report_context r) V ::
        (if bool_decide (capture s3 hub (report_context r) V <> None)
            && WaitForDelivery options
         then [EvFlush hub (if Timeout options =? 0
                            then 2 * time.Second else Timeout options)]
         else []))
       s3).
Proof.
  intros h s s3 hub Hv Hp Hframe. subst h s s3 hub.
  apply panics_with_run in Hp.
  rewrite (panic_value_not_nil mode V Hv) in Hp.
  rewrite (handle_recovers mode capture _ handler w r _ V _ Hv Hp).
  unfold recovery_events. rewrite Hframe, New_handler_at.
  reflexivity.
Qed.

Lemma New_then_recover_witness :
  handle LegacyNilPanic sample.accepting 0%nat
    (sample.panicker LegacyNilPanic (AError "db down")) sample.w
    sample.request (snd (New (mkOptions false true (-5)) sample.start))
  = (Return tt,
     add_events
       [EvRecoverWithContext 1%nat (report_context sample.request)
          (AError "db down");
        EvFlush 1%nat (-5)]
       (snd (next_run (sample.panicker LegacyNilPanic (AError "db down"))
               sample.w sample.request
               (snd (New (mkOptions false true (-5)) sample.start))))).
Proof.
  apply (New_then_recover LegacyNilPanic sample.accepting
           (mkOptions false true (-5)) sample.start
           (sample.panicker LegacyNilPanic (AError "db down")) sample.w
           sample.request (AError "db down")).
  - discriminate.
  - reflexivity.
  - reflexivity.
Defined.

(** X7: what [panic(nil)] in the next handler comes to.  Before Go
    1.21 the wrapped handler returns as if nothing had happened, with
    the world as the next handler left it: no report, no flush, and no
    panic even with the repanic flag set.  Since Go 1.21 the panic is
    recovered as the runtime's PanicNilError, and reported, flushed and
    raised again like any other value. *)
Theorem nil_panic_by_runtime capture h handler w r s :
  let s3 := snd (next_run handler w r s) in
  (panics_with LegacyNilPanic Nil handler w r s ->
   handle LegacyNilPanic capture h handler w r s = (Return tt, s3))
  /\ (panics_with PanicNilErrorSince121 Nil handler w r s ->
      handle PanicNilErrorSince121 capture h handler w r s
      = (if repanic (handler_at s3 h)
         then Panicking APanicNilError else Return tt,
         add_events
           (recovery_events capture h (entry_hub r s) r APanicNilError s3)
           s3)).
Proof.
  intros s3. subst s3. split; intros Hp; apply panics_with_run in Hp.
  - by apply handle_recovers_nil.
  - by apply handle_recovers.
Qed.

Lemma nil_panic_by_runtime_witness :
  handle LegacyNilPanic sample.accepting 0%nat
    (sample.panicker LegacyNilPanic Nil) sample.w sample.request
    (sample.after_New (mkOptions true true 0))
  = (Return tt,
     add_events [EvWriteHeader sample.w 202]
       (entry_world sample.request
          (sample.after_New (mkOptions true true 0))))
  /\ fst (handle PanicNilErrorSince121 sample.accepting 0%nat
            (sample.panicker PanicNilErrorSince121 Nil) sample.w
            sample.request (sample.after_New (mkOptions true true 0)))
     = Panicking APanicNilError.
Proof.
  split.
  - rewrite (proj1 (nil_panic_by_runtime sample.accepting 0%nat
                      (sample.panicker LegacyNilPanic Nil) sample.w
                      sample.request
                      (sample.after_New (mkOptions true true 0)))
               eq_refl).
    reflexivity.
  - rewrite (proj2 (nil_panic_by_runtime sample.accepting 0%nat
                      (sample.panicker PanicNilErrorSince121 Nil) sample.w
                      sample.request
                      (sample.after_New (mkOptions true true 0)))
               eq_refl).
    reflexivity.
Defined.

(** ** The trace of one request *)

Lemma recovery_trace_no_writes hub evs :
  recovery_trace hub evs -> writes evs = [].
Proof. by destruct 1. Qed.

(** X8: the wrapper itself never writes to the response writer.
    Whatever the next handler does (return, panic, panic that is
    swallowed), the writes in the trace after the wrapped handler are
    those the next handler made, and the steps before the next handler
    add none: no status and no error body come from the middleware. *)
Theorem wrapper_never_writes mode capture h handler w r s :
  writes (log (entry_world r s)) = writes (log s)
  /\ writes (log (snd (handle mode capture h handler w r s)))
     = writes (log (snd (next_run handler w r s))).
Proof.
  split.
  - unfold entry_world, writes.
    destruct (sentry.GetHubFromContext (Context r)); cbn [log];
      rewrite omap_app; cbn; by rewrite app_nil_r.
  - destruct (handle_adds_recovery_trace mode capture h handler w r s)
      as (evs & -> & Htr).
    cbn [add_events log]. unfold writes at 1. rewrite omap_app.
    fold (writes evs). rewrite (recovery_trace_no_writes _ _ Htr).
    by rewrite app_nil_r.
Qed.

(** X9: whatever the next handler does, what the wrapper adds to the
    trace after it is nothing, one report, or one report followed by one
    flush on the same hub, the hub of the request: never two reports,
    never a flush without a report before it, never a call on another
    hub; and the heaps of hubs and handlers stay as the next handler
    left them. *)
Theorem recovery_adds_report_then_flush mode capture h handler w r s :
  let s3 := snd (next_run handler w r s) in
  let s4 := snd (handle mode capture h handler w r s) in
  exists evs,
    log s4 = log s3 ++ evs
    /\ recovery_trace (entry_hub r s) evs
    /\ (length (flushes evs) <= length (reports evs) <= 1)%nat
    /\ clones evs = []
    /\ hubs s4 = hubs s3
    /\ handlers s4 = handlers s3.
Proof.
  intros s3 s4. subst s3 s4.
  destruct (handle_adds_recovery_trace mode capture h handler w r s)
    as (evs & -> & Htr).
  exists evs. split; [reflexivity|]. split; [exact Htr|].
  destruct Htr; cbn; repeat split; lia.
Qed.
